(** * WTF::StackTrace: capture and dump

    A shallow embedding of [wtf/StackTrace.cpp] (WTFGetBacktrace, symbolize,
    StackTrace::instanceSize, StackTrace::captureStackTrace,
    StackTrace::demangle and StackTrace::dump) together with the properties
    of the capture-and-symbolication engine, followed by the pending-activity
    counter of [dom/ActiveDOMObject.h].

    Conventions.
    - A C [int] is a [Z] in [INT_MIN, INT_MAX]; every [int] addition and
      subtraction of the source goes through [int_wrap].
    - A [const char*] is an [option string]; [None] is the null pointer.
    - A [void*] is a [Z] (the numeric value of the address).
    - The preprocessor conditions of the file are the fields of [BuildFlags].
    - The operating system and library primitives the file calls are the
      fields of [Platform].
    - Heap allocation ([fastMalloc], [malloc], [strdup]) is assumed to succeed. *)

From Stdlib Require Import ZArith List String Ascii Bool Lia.
From Stdlib Require Import DecimalString.
Import ListNotations.

Local Open Scope string_scope.
Local Open Scope list_scope.
Local Open Scope Z_scope.

(** ** Machine integers *)

Definition INT_MAX : Z := 2147483647.
Definition INT_MIN : Z := -2147483648.

Definition in_int (z : Z) : Prop := INT_MIN <= z <= INT_MAX.

(** Two's complement wrap-around of a 32-bit [int]. *)
Definition int_wrap (z : Z) : Z := (z + 2147483648) mod 4294967296 - 2147483648.

Definition int_add (a b : Z) : Z := int_wrap (a + b).
Definition int_sub (a b : Z) : Z := int_wrap (a - b).

Definition address : Type := Z.

(** ** Build configuration *)

(** One field per preprocessor condition tested in the file; the file tests
    them independently of one another, and so does the model.
    [ASSERT_ENABLED] tells whether [ASSERT] is compiled in (debug builds);
    [RELEASE_ASSERT] is compiled in whatever the build. *)
Record BuildFlags : Type := {
  USE_LIBBACKTRACE : bool;
  HAVE_BACKTRACE_SYMBOLS : bool;
  HAVE_BACKTRACE : bool;
  HAVE_DLADDR : bool;
  OS_WINDOWS : bool;
  ASSERT_ENABLED : bool
}.

(** ** Outcomes of code that may halt on an assertion *)

Inductive Outcome (A : Type) : Type :=
| Returned (a : A)
| Crashed.
Arguments Returned {A} a.
Arguments Crashed {A}.

Definition bind {A B : Type} (m : Outcome A) (k : A -> Outcome B) : Outcome B :=
  match m with
  | Returned a => k a
  | Crashed => Crashed
  end.

Declare Scope outcome_scope.
Delimit Scope outcome_scope with outcome.
Notation "x <- m ;; k" := (bind m (fun x => k))
  (at level 61, m at next level, right associativity) : outcome_scope.
Notation "m ;;; k" := (bind m (fun _ => k))
  (at level 61, right associativity) : outcome_scope.

(** [ASSERT(cond)]: checked in debug builds only. *)
Definition ASSERT (flags : BuildFlags) (cond : bool) : Outcome unit :=
  if ASSERT_ENABLED flags then (if cond then Returned tt else Crashed)
  else Returned tt.

(** [RELEASE_ASSERT(cond)]: checked in every build. *)
Definition RELEASE_ASSERT (cond : bool) : Outcome unit :=
  if cond then Returned tt else Crashed.

(** ** Platform primitives *)

(** A [struct backtrace_state*]; the null pointer is [0]. *)
Definition backtrace_state_ptr : Type := Z.

Record Dl_info : Type := {
  dli_sname : option string
}.

Record Platform : Type := {
  (** [backtrace(buffer, size)] of execinfo: the addresses written to
      [buffer]; the returned count is their number. *)
  backtrace : Z -> list address;
  (** [RtlCaptureStackBackTrace(0, size, buffer, nullptr)]. *)
  RtlCaptureStackBackTrace : Z -> list address;
  (** [backtrace_create_state(nullptr, 1, nullptr, nullptr)]. *)
  backtrace_create_state : backtrace_state_ptr;
  (** [backtrace_pcinfo(state, pc, backtraceFullCallback, nullptr, &symbol)]:
      the function name the callback stores into [symbol]. *)
  backtrace_pcinfo : backtrace_state_ptr -> address -> option string;
  (** [backtrace_syminfo(state, pc, backtraceSyminfoCallback, nullptr,
      &symbol)]: the symbol name the callback stores into [symbol]. *)
  backtrace_syminfo : backtrace_state_ptr -> address -> option string;
  (** [abi::__cxa_demangle(name, nullptr, nullptr, status)]. *)
  cxa_demangle : string -> option string;
  (** [backtrace_symbols(buffer, size)] applied to the first [size]
      addresses; [None] is a null result. *)
  backtrace_symbols : list address -> option (list string);
  (** [dladdr(pc, &info)]: [None] when it returns zero. *)
  dladdr : address -> option Dl_info;
  (** [DbgHelper::SymFromAddress]: the name stored in [symbolInfo] on
      success. *)
  SymFromAddress : address -> option string;
  (** What [printf] writes for a [%p] conversion. *)
  format_pointer : address -> string;
  sizeof_StackTrace : Z;
  sizeof_pointer : Z
}.

(** ** The trace object *)

(** The fields of [StackTrace] the file reads and writes.  [m_frames] is the
    run of addresses the capture primitive wrote starting at
    [m_skippedFrame0]. *)
Record StackTrace : Type := {
  m_prefix : option string;
  m_size : Z;
  m_capacity : Z;
  m_frames : list address
}.

(** ** WTFGetBacktrace *)

(** [WTFGetBacktrace(stack, &size)]: returns the addresses written to [stack]
    and the new value of [*size]. *)
Definition WTFGetBacktrace (flags : BuildFlags) (pl : Platform) (size : Z)
  : list address * Z :=
  if HAVE_BACKTRACE flags then
    let written := backtrace pl size in
    (written, Z.of_nat (List.length written))
  else if OS_WINDOWS flags then
    let written := RtlCaptureStackBackTrace pl size in
    (written, Z.of_nat (List.length written))
  else
    ([], 0).

(** ** StackTrace::instanceSize and StackTrace::captureStackTrace *)

Definition instanceSize (flags : BuildFlags) (pl : Platform) (capacity : Z)
  : Outcome Z :=
  (ASSERT flags (1 <=? capacity) ;;;
   Returned (sizeof_StackTrace pl + (capacity - 1) * sizeof_pointer pl))%outcome.

(** The constructor [StackTrace()] is declared in [wtf/StackTrace.h]; a fresh
    trace is taken to carry a null prefix. *)
Definition captureStackTrace (flags : BuildFlags) (pl : Platform)
    (maxFrames framesToSkip : Z) : Outcome StackTrace :=
  (let maxFrames := Z.max 1 maxFrames in
   sizeToAllocate <- instanceSize flags pl maxFrames ;;
   let framesToSkip := int_add framesToSkip 2 in
   let numberOfFrames := int_add maxFrames framesToSkip in
   let '(written, numberOfFrames) := WTFGetBacktrace flags pl numberOfFrames in
   size <- (if numberOfFrames =? 0 then Returned 0
            else
              RELEASE_ASSERT (framesToSkip <=? numberOfFrames) ;;;
              Returned (int_sub numberOfFrames framesToSkip)) ;;
   Returned {| m_prefix := None;
               m_size := size;
               m_capacity := maxFrames;
               m_frames := written |})%outcome.

(** ** The process-wide libbacktrace state *)

(** The function-local static of [backtraceState()]: [None] until the first
    call, the created state afterwards. *)
Record Process : Type := {
  backtraceState_static : option backtrace_state_ptr
}.

Definition backtraceState (pl : Platform) (p : Process)
  : backtrace_state_ptr * Process :=
  match backtraceState_static p with
  | Some state => (state, p)
  | None =>
      let state := backtrace_create_state pl in
      (state, {| backtraceState_static := Some state |})
  end.

(** ** symbolize *)

(** One iteration of the loop of [symbolize]: the string stored in
    [symbols[i]] for the address [pc]. *)
Definition symbolize_address (pl : Platform) (state : backtrace_state_ptr)
    (p : Process) (pc : address) : string * Process :=
  let symbol := backtrace_pcinfo pl state pc in
  let '(symbol, p) :=
    match symbol with
    | Some _ => (symbol, p)
    | None =>
        let '(state', p') := backtraceState pl p in
        (backtrace_syminfo pl state' pc, p')
    end in
  match symbol with
  | Some symbol =>
      match cxa_demangle pl symbol with
      | Some demangled => (demangled, p)
      | None => (symbol, p)
      end
  | None => ("???", p)
  end.

Fixpoint symbolize_loop (pl : Platform) (state : backtrace_state_ptr)
    (addresses : nat -> address) (remaining i : nat) (p : Process)
    (symbols : list string) : list string * Process :=
  match remaining with
  | O => (symbols, p)
  | S remaining' =>
      let '(s, p') := symbolize_address pl state p (addresses i) in
      symbolize_loop pl state addresses remaining' (S i) p' (symbols ++ [s])
  end.

(** [symbolize(addresses, size)]; [None] is the null result. *)
Definition symbolize (pl : Platform) (p : Process) (addresses : nat -> address)
    (size : Z) : option (list string) * Process :=
  let '(state, p) := backtraceState pl p in
  if state =? 0 then (None, p)
  else
    let '(symbols, p) :=
      symbolize_loop pl state addresses (Z.to_nat size) 0%nat p [] in
    (Some symbols, p).

(** ** StackTrace::demangle *)

Record DemangleEntry : Type := {
  mangledName : option string;
  demangledName : option string
}.

Definition is_set {A : Type} (ptr : option A) : bool :=
  match ptr with Some _ => true | None => false end.

Definition demangle (flags : BuildFlags) (pl : Platform) (pc : address)
  : option DemangleEntry :=
  if HAVE_DLADDR flags then
    let mangled : option string :=
      match dladdr pl pc with
      | Some info => dli_sname info
      | None => None
      end in
    let cxaDemangled : option string :=
      match mangled with
      | Some name => cxa_demangle pl name
      | None => None
      end in
    if is_set mangled || is_set cxaDemangled then
      Some {| mangledName := mangled; demangledName := cxaDemangled |}
    else None
  else None.

(** ** printf conversions *)

Definition newline : string := String (ascii_of_nat 10) EmptyString.

Fixpoint spaces (n : nat) : string :=
  match n with
  | O => EmptyString
  | S n' => String " "%char (spaces n')
  end.

(** [%-3d]: decimal digits, padded with blanks on the right to three
    columns. *)
Definition format_d_left3 (n : Z) : string :=
  let digits := NilZero.string_of_int (Z.to_int n) in
  (digits ++ spaces (3 - String.length digits))%string.

(** [%s] for a [const char*]; glibc prints a null pointer as [(null)]. *)
Definition format_s (s : option string) : string :=
  match s with
  | Some text => text
  | None => "(null)"
  end.

(** The stream is the sequence of strings written to it, one per [printf]
    call. *)
Definition PrintStream : Type := list string.

Definition or_empty (s : option string) : option string :=
  match s with
  | Some _ => s
  | None => Some ""
  end.

(** [out.printf("%s%s%-3d %p %s\n", prefix, indent, frameNumber, pc, name)]. *)
Definition printf_named (pl : Platform) (out : PrintStream)
    (prefix indent : option string) (frameNumber : Z) (pc : address)
    (name : option string) : PrintStream :=
  out ++ [(format_s prefix ++ format_s indent ++ format_d_left3 frameNumber
           ++ " " ++ format_pointer pl pc ++ " " ++ format_s name
           ++ newline)%string].

(** [out.printf("%s%s%-3d %p\n", prefix, indent, frameNumber, pc)]. *)
Definition printf_bare (pl : Platform) (out : PrintStream)
    (prefix indent : option string) (frameNumber : Z) (pc : address)
  : PrintStream :=
  out ++ [(format_s prefix ++ format_s indent ++ format_d_left3 frameNumber
           ++ " " ++ format_pointer pl pc ++ newline)%string].

(** ** StackTrace::dump *)

Section Dump.

(** [stack t i] is [t.stack()[i]]; the accessor is declared in
    [wtf/StackTrace.h]. *)
Variable stack : StackTrace -> nat -> address.

Variable flags : BuildFlags.
Variable pl : Platform.

(** The [symbols] array set up before the loop; [None] when the null check
    makes [dump] return.  Builds that declare no [symbols] carry an empty
    array. *)
Definition dump_symbols (p : Process) (t : StackTrace)
  : option (list string) * Process :=
  if USE_LIBBACKTRACE flags then
    symbolize pl p (stack t) (m_size t)
  else if HAVE_BACKTRACE_SYMBOLS flags then
    (backtrace_symbols pl (map (stack t) (seq 0 (Z.to_nat (m_size t)))), p)
  else
    (Some [], p).

(** The body of the printing loop for index [i]. *)
Definition dump_frame (t : StackTrace) (indentString : option string)
    (symbols : list string) (i : nat) (out : PrintStream) : PrintStream :=
  let mangled : option string :=
    if HAVE_BACKTRACE_SYMBOLS flags then Some (nth i symbols EmptyString)
    else if OS_WINDOWS flags then SymFromAddress pl (stack t i)
    else None in
  let cxaDemangled : option string := None in
  let demangled := demangle flags pl (stack t i) in
  let '(mangled, cxaDemangled) :=
    match demangled with
    | Some entry => (mangledName entry, demangledName entry)
    | None => (mangled, cxaDemangled)
    end in
  let frameNumber := int_add (Z.of_nat i) 1 in
  if is_set mangled || is_set cxaDemangled then
    printf_named pl out (or_empty (m_prefix t)) indentString frameNumber
      (stack t i)
      (match cxaDemangled with Some _ => cxaDemangled | None => mangled end)
  else
    printf_bare pl out (or_empty (m_prefix t)) indentString frameNumber
      (stack t i).

(** [for (int i = 0; i < m_size; ++i)], with [remaining] iterations left. *)
Fixpoint dump_loop (t : StackTrace) (indentString : option string)
    (symbols : list string) (remaining i : nat) (out : PrintStream)
  : PrintStream :=
  match remaining with
  | O => out
  | S remaining' =>
      dump_loop t indentString symbols remaining' (S i)
        (dump_frame t indentString symbols i out)
  end.

Definition dump (p : Process) (t : StackTrace) (out : PrintStream)
    (indentString : option string) : Process * PrintStream :=
  let '(symbols, p) := dump_symbols p t in
  match symbols with
  | None => (p, out)
  | Some symbols =>
      let indentString := or_empty indentString in
      (p, dump_loop t indentString symbols (Z.to_nat (m_size t)) 0%nat out)
  end.

End Dump.

(** ** Operations on a captured trace *)

(** Modelled from the spec: [setPrefix], declared in [wtf/StackTrace.h] and
    absent from the sources at hand: the display prefix is settable and has no
    effect on capture or resolution. *)
Definition setPrefix (t : StackTrace) (prefix : option string) : StackTrace :=
  {| m_prefix := prefix;
     m_size := m_size t;
     m_capacity := m_capacity t;
     m_frames := m_frames t |}.

(** What a holder of a trace can do with it after capture. *)
Inductive Operation : Type :=
| OpDump (indentString : option string)
| OpSetPrefix (prefix : option string).

Record World : Type := {
  w_trace : StackTrace;
  w_process : Process;
  w_out : PrintStream
}.

Definition perform (stack : StackTrace -> nat -> address) (flags : BuildFlags)
    (pl : Platform) (w : World) (op : Operation) : World :=
  match op with
  | OpDump indentString =>
      let '(p, out) :=
        dump stack flags pl (w_process w) (w_trace w) (w_out w) indentString in
      {| w_trace := w_trace w; w_process := p; w_out := out |}
  | OpSetPrefix prefix =>
      {| w_trace := setPrefix (w_trace w) prefix;
         w_process := w_process w;
         w_out := w_out w |}
  end.

Definition perform_all (stack : StackTrace -> nat -> address)
    (flags : BuildFlags) (pl : Platform) (w : World) (ops : list Operation)
  : World :=
  fold_left (perform stack flags pl) ops w.

(** ** Reference descriptions of the resolution strategies *)

(** Strategy A, one address: the precise lookup, and the symbol-table lookup
    only when the precise one gave no name. *)
Definition precise_then_coarse (pl : Platform) (state : backtrace_state_ptr)
    (pc : address) : option string :=
  match backtrace_pcinfo pl state pc with
  | Some name => Some name
  | None => backtrace_syminfo pl state pc
  end.

(** Best-effort demangling: the readable form when there is one, the raw
    name otherwise. *)
Definition demangled_or_raw (pl : Platform) (raw : string) : string :=
  match cxa_demangle pl raw with
  | Some readable => readable
  | None => raw
  end.

(** The string Strategy A reports for a lookup result. *)
Definition name_or_placeholder (pl : Platform) (found : option string)
  : string :=
  match found with
  | Some raw => demangled_or_raw pl raw
  | None => "???"
  end.

(** Strategy B, one address: the symbol name of the nearest preceding symbol,
    if the dynamic loader knows one. *)
Definition nearest_symbol (pl : Platform) (pc : address) : option string :=
  match dladdr pl pc with
  | Some info => dli_sname info
  | None => None
  end.

(** The name [dump] shows for frame [i], if any: the dynamic loader's name
    (demangled when possible) first, else the entry of the symbol array or
    the debug-helper name, depending on the build. *)
Definition frame_name (stack : StackTrace -> nat -> address)
    (flags : BuildFlags) (pl : Platform) (t : StackTrace)
    (symbols : list string) (i : nat) : option string :=
  match (if HAVE_DLADDR flags then nearest_symbol pl (stack t i) else None) with
  | Some raw => Some (demangled_or_raw pl raw)
  | None =>
      if HAVE_BACKTRACE_SYMBOLS flags then Some (nth i symbols EmptyString)
      else if OS_WINDOWS flags then SymFromAddress pl (stack t i)
      else None
  end.

Definition text_or_empty (s : option string) : string :=
  match s with
  | Some text => text
  | None => EmptyString
  end.

(** The line for frame [i]: prefix, indent, 1-based frame number, address,
    then the name when there is one. *)
Definition frame_line (stack : StackTrace -> nat -> address)
    (flags : BuildFlags) (pl : Platform) (t : StackTrace)
    (indentString : option string) (symbols : list string) (i : nat)
  : string :=
  (text_or_empty (m_prefix t) ++ text_or_empty indentString
   ++ format_d_left3 (Z.of_nat i + 1) ++ " " ++ format_pointer pl (stack t i)
   ++ match frame_name stack flags pl t symbols i with
      | Some name => " " ++ name
      | None => EmptyString
      end
   ++ newline)%string.

(** ** Sample builds, platforms and traces *)

Definition sample_flags (libbacktrace symbols bt dl windows debug : bool)
  : BuildFlags :=
  {| USE_LIBBACKTRACE := libbacktrace;
     HAVE_BACKTRACE_SYMBOLS := symbols;
     HAVE_BACKTRACE := bt;
     HAVE_DLADDR := dl;
     OS_WINDOWS := windows;
     ASSERT_ENABLED := debug |}.

(** A production build with libbacktrace, execinfo and the dynamic loader. *)
Definition linux_release : BuildFlags :=
  sample_flags true true true true false false.

(** The same build with assertions compiled in. *)
Definition linux_debug : BuildFlags :=
  sample_flags true true true true false true.

(** A production build that has [backtrace] and [dladdr] only. *)
Definition dladdr_release : BuildFlags :=
  sample_flags false false true true false false.

(** A production build with no backtrace facility at all. *)
Definition bare_release : BuildFlags :=
  sample_flags false false false false false false.

(** A call stack five frames deep. *)
Definition sample_frames : list address := [4096; 4112; 4128; 4144; 4160].

Definition sample_platform (state : backtrace_state_ptr) : Platform :=
  {| backtrace := fun size => firstn (Z.to_nat size) sample_frames;
     RtlCaptureStackBackTrace := fun size => firstn (Z.to_nat size) sample_frames;
     backtrace_create_state := state;
     backtrace_pcinfo := fun _ pc => if pc =? 4128 then Some "_Z3foov" else None;
     backtrace_syminfo := fun _ pc => if pc =? 4144 then Some "main" else None;
     cxa_demangle := fun s => if String.eqb s "_Z3foov" then Some "foo()" else None;
     backtrace_symbols := fun pcs => Some (map (fun _ => "module(+0x10)") pcs);
     dladdr := fun pc =>
       if pc =? 4128 then Some {| dli_sname := Some "_Z3foov" |}
       else if pc =? 4144 then Some {| dli_sname := Some "main" |}
       else if pc =? 4160 then Some {| dli_sname := None |}
       else None;
     SymFromAddress := fun _ => None;
     format_pointer := fun pc => ("0x" ++ NilZero.string_of_int (Z.to_int pc))%string;
     sizeof_StackTrace := 32;
     sizeof_pointer := 8 |}.

(** An accessor that starts two slots after [m_skippedFrame0]. *)
Definition sample_stack (t : StackTrace) (i : nat) : address :=
  nth (i + 2) (m_frames t) 0.

Definition sample_trace : StackTrace :=
  {| m_prefix := None; m_size := 3; m_capacity := 10; m_frames := sample_frames |}.

Definition empty_trace : StackTrace :=
  {| m_prefix := None; m_size := 0; m_capacity := 1; m_frames := sample_frames |}.

(** [sample_trace] with an empty, non-null prefix. *)
Definition sample_trace_empty_prefix : StackTrace :=
  {| m_prefix := Some EmptyString; m_size := 3; m_capacity := 10;
     m_frames := sample_frames |}.

(** The trace [captureStackTrace] returns for [maxFrames = 2] and
    [framesToSkip = 1] on the sample platform. *)
Definition captured_sample : StackTrace :=
  {| m_prefix := None; m_size := 2; m_capacity := 2; m_frames := sample_frames |}.

Definition fresh_process : Process := {| backtraceState_static := None |}.

(** ** Quantities of a capture call *)

(** The frames hidden from the caller: [framesToSkip] plus the two internal
    ones. *)
Definition total_skip (framesToSkip : Z) : Z := int_add framesToSkip 2.

(** The count [captureStackTrace] asks the primitive for. *)
Definition requested_frames (maxFrames framesToSkip : Z) : Z :=
  int_add (Z.max 1 maxFrames) (total_skip framesToSkip).

(** The count the primitive reports back for that request. *)
Definition reported_frames (flags : BuildFlags) (pl : Platform)
    (maxFrames framesToSkip : Z) : Z :=
  snd (WTFGetBacktrace flags pl (requested_frames maxFrames framesToSkip)).

(** ** Variations of a build and of a platform *)

(** The build [flags] with [ASSERT] compiled in or out. *)
Definition with_ASSERT_ENABLED (flags : BuildFlags) (enabled : bool)
  : BuildFlags :=
  {| USE_LIBBACKTRACE := USE_LIBBACKTRACE flags;
     HAVE_BACKTRACE_SYMBOLS := HAVE_BACKTRACE_SYMBOLS flags;
     HAVE_BACKTRACE := HAVE_BACKTRACE flags;
     HAVE_DLADDR := HAVE_DLADDR flags;
     OS_WINDOWS := OS_WINDOWS flags;
     ASSERT_ENABLED := enabled |}.

(** The platform [pl] with other answers from the two libbacktrace
    lookups. *)
Definition with_lookups (pl : Platform)
    (pcinfo syminfo : backtrace_state_ptr -> address -> option string)
  : Platform :=
  {| backtrace := backtrace pl;
     RtlCaptureStackBackTrace := RtlCaptureStackBackTrace pl;
     backtrace_create_state := backtrace_create_state pl;
     backtrace_pcinfo := pcinfo;
     backtrace_syminfo := syminfo;
     cxa_demangle := cxa_demangle pl;
     backtrace_symbols := backtrace_symbols pl;
     dladdr := dladdr pl;
     SymFromAddress := SymFromAddress pl;
     format_pointer := format_pointer pl;
     sizeof_StackTrace := sizeof_StackTrace pl;
     sizeof_pointer := sizeof_pointer pl |}.

(** The last character of a string, if it has one. *)
Fixpoint last_ascii (s : string) : option ascii :=
  match s with
  | EmptyString => None
  | String c rest =>
      match last_ascii rest with
      | Some last => Some last
      | None => Some c
      end
  end.

Definition newline_char : ascii := ascii_of_nat 10.

(** A process whose libbacktrace state was created and came out null. *)
Definition failed_process : Process := {| backtraceState_static := Some 0 |}.

(** * WebCore::ActiveDOMObject: pending activity

    The inline member functions of [dom/ActiveDOMObject.h] that keep
    [m_pendingActivityInstanceCount].  An [unsigned] is a [Z] in
    [0, UINT_MAX] and wraps modulo 2^32.  Objects live in a heap indexed by
    their address, so that [this] and the [thisObject] argument can be told
    apart. *)

Definition UINT_MAX : Z := 4294967295.

Definition uint_wrap (z : Z) : Z := z mod 4294967296.

Section ActiveDOMObjectModel.

(** The rest of an object: its [RefCounted] base and the state of the
    subclass.  [ref], [deref] and the override of [virtualHasPendingActivity]
    belong to it and are declared outside the header. *)
Variable Derived : Type.
Variable ref deref : Derived -> Derived.
Variable virtualHasPendingActivity : Derived -> bool.

Record ActiveDOMObject : Type := {
  m_pendingActivityInstanceCount : Z;
  derived : Derived
}.

Definition Heap : Type := nat -> ActiveDOMObject.

Definition store (h : Heap) (at_address : nat) (o : ActiveDOMObject) : Heap :=
  fun a => if Nat.eqb a at_address then o else h a.

(** [++m_pendingActivityInstanceCount]. *)
Definition increment (o : ActiveDOMObject) : ActiveDOMObject :=
  {| m_pendingActivityInstanceCount :=
       uint_wrap (m_pendingActivityInstanceCount o + 1);
     derived := derived o |}.

(** [--m_pendingActivityInstanceCount]. *)
Definition decrement (o : ActiveDOMObject) : ActiveDOMObject :=
  {| m_pendingActivityInstanceCount :=
       uint_wrap (m_pendingActivityInstanceCount o - 1);
     derived := derived o |}.

Definition call_ref (o : ActiveDOMObject) : ActiveDOMObject :=
  {| m_pendingActivityInstanceCount := m_pendingActivityInstanceCount o;
     derived := ref (derived o) |}.

Definition call_deref (o : ActiveDOMObject) : ActiveDOMObject :=
  {| m_pendingActivityInstanceCount := m_pendingActivityInstanceCount o;
     derived := deref (derived o) |}.

Definition hasPendingActivity (o : ActiveDOMObject) : bool :=
  negb (m_pendingActivityInstanceCount o =? 0)
  || virtualHasPendingActivity (derived o).

(** [this->setPendingActivity(thisObject)]. *)
Definition setPendingActivity (flags : BuildFlags) (this thisObject : nat)
    (h : Heap) : Outcome Heap :=
  (ASSERT flags (Nat.eqb thisObject this) ;;;
   let h := store h thisObject (call_ref (h thisObject)) in
   Returned (store h this (increment (h this))))%outcome.

(** [this->unsetPendingActivity(thisObject)]. *)
Definition unsetPendingActivity (flags : BuildFlags) (this thisObject : nat)
    (h : Heap) : Outcome Heap :=
  (ASSERT flags (0 <? m_pendingActivityInstanceCount (h this)) ;;;
   let h := store h this (decrement (h this)) in
   Returned (store h thisObject (call_deref (h thisObject))))%outcome.

(** A [PendingActivity<T>]; its [Ref<T>] member is the address of the object
    it keeps alive. *)
Record PendingActivity : Type := {
  m_thisObject : nat
}.

(** The constructor [PendingActivity(thisObject)]: the [Ref<T>] member takes
    its reference, then the body counts the activity. *)
Definition PendingActivity_construct (thisObject : nat) (h : Heap)
  : PendingActivity * Heap :=
  let h := store h thisObject (call_ref (h thisObject)) in
  ({| m_thisObject := thisObject |},
   store h thisObject (increment (h thisObject))).

(** The destructor [~PendingActivity()]: the body, then the [Ref<T>] member
    gives its reference back. *)
Definition PendingActivity_destroy (flags : BuildFlags) (a : PendingActivity)
    (h : Heap) : Outcome Heap :=
  (ASSERT flags (0 <? m_pendingActivityInstanceCount (h (m_thisObject a))) ;;;
   let h := store h (m_thisObject a) (decrement (h (m_thisObject a))) in
   Returned (store h (m_thisObject a) (call_deref (h (m_thisObject a)))))%outcome.

(** [this->makePendingActivity(thisObject)]. *)
Definition makePendingActivity (flags : BuildFlags) (this thisObject : nat)
    (h : Heap) : Outcome (PendingActivity * Heap) :=
  (ASSERT flags (Nat.eqb thisObject this) ;;;
   Returned (PendingActivity_construct thisObject h))%outcome.

(** [count] calls of [makePendingActivity] on the object at [this], the
    activities collected in creation order. *)
Fixpoint make_activities (flags : BuildFlags) (this : nat) (count : nat)
    (h : Heap) : Outcome (list PendingActivity * Heap) :=
  match count with
  | O => Returned ([], h)
  | S count' =>
      (made <- makePendingActivity flags this this h ;;
       rest <- make_activities flags this count' (snd made) ;;
       Returned (fst made :: fst rest, snd rest))%outcome
  end.

(** The activities of a list destroyed one after the other. *)
Fixpoint destroy_activities (flags : BuildFlags)
    (activities : list PendingActivity) (h : Heap) : Outcome Heap :=
  match activities with
  | [] => Returned h
  | a :: rest =>
      (h' <- PendingActivity_destroy flags a h ;;
       destroy_activities flags rest h')%outcome
  end.

End ActiveDOMObjectModel.

Arguments m_pendingActivityInstanceCount {Derived} _.
Arguments derived {Derived} _.
Arguments store {Derived} h at_address o _.
Arguments increment {Derived} o.
Arguments decrement {Derived} o.
Arguments call_ref {Derived} ref o.
Arguments call_deref {Derived} deref o.
Arguments hasPendingActivity {Derived} virtualHasPendingActivity o.
Arguments setPendingActivity {Derived} ref flags this thisObject h.
Arguments unsetPendingActivity {Derived} deref flags this thisObject h.
Arguments PendingActivity_construct {Derived} ref thisObject h.
Arguments PendingActivity_destroy {Derived} deref flags a h.
Arguments makePendingActivity {Derived} ref flags this thisObject h.
Arguments make_activities {Derived} ref flags this count h.
Arguments destroy_activities {Derived} deref flags activities h.

(** A sample subclass state: the reference count alone. *)
Definition sample_object (count refs : Z) : ActiveDOMObject Z :=
  {| m_pendingActivityInstanceCount := count; derived := refs |}.

Definition sample_heap (count : Z) : Heap Z := fun _ => sample_object count 1.

(** * Properties *)

(** ** Machine integers *)

Lemma int_wrap_range (z : Z) : in_int (int_wrap z).
Proof.
  unfold in_int, int_wrap, INT_MIN, INT_MAX.
  pose proof (Z.mod_pos_bound (z + 2147483648) 4294967296 eq_refl). lia.
Qed.

Lemma int_wrap_small (z : Z) : in_int z -> int_wrap z = z.
Proof.
  unfold in_int, int_wrap, INT_MIN, INT_MAX. intros Hz.
  rewrite Z.mod_small by lia. lia.
Qed.

(** [int_wrap] moves its argument by a whole number of 2^32 steps. *)
Lemma int_wrap_shift (z : Z) :
  exists k : Z, int_wrap z = z - k * 4294967296.
Proof.
  exists ((z + 2147483648) / 4294967296). unfold int_wrap.
  pose proof (Z.div_mod (z + 2147483648) 4294967296 ltac:(lia)). lia.
Qed.

(** ** Capture *)

Lemma WTFGetBacktrace_nonneg (flags : BuildFlags) (pl : Platform) (size : Z) :
  0 <= snd (WTFGetBacktrace flags pl size).
Proof.
  unfold WTFGetBacktrace.
  destruct (HAVE_BACKTRACE flags); [simpl; lia|].
  destruct (OS_WINDOWS flags); simpl; lia.
Qed.

Lemma instanceSize_returns (flags : BuildFlags) (pl : Platform) (maxFrames : Z) :
  exists bytes, instanceSize flags pl (Z.max 1 maxFrames) = Returned bytes.
Proof.
  unfold instanceSize, ASSERT.
  assert (H : (1 <=? Z.max 1 maxFrames) = true) by (apply Z.leb_le; lia).
  rewrite H. destruct (ASSERT_ENABLED flags); simpl; eauto.
Qed.

(** [captureStackTrace] as a three-way case on the reported count. *)
Lemma captureStackTrace_cases (flags : BuildFlags) (pl : Platform)
    (maxFrames framesToSkip : Z) :
  let got := WTFGetBacktrace flags pl (requested_frames maxFrames framesToSkip) in
  captureStackTrace flags pl maxFrames framesToSkip =
    if snd got =? 0 then
      Returned {| m_prefix := None; m_size := 0;
                  m_capacity := Z.max 1 maxFrames; m_frames := fst got |}
    else if total_skip framesToSkip <=? snd got then
      Returned {| m_prefix := None;
                  m_size := int_sub (snd got) (total_skip framesToSkip);
                  m_capacity := Z.max 1 maxFrames; m_frames := fst got |}
    else Crashed.
Proof.
  unfold captureStackTrace, requested_frames, total_skip.
  destruct (instanceSize_returns flags pl maxFrames) as [bytes ->].
  cbn [bind].
  destruct (WTFGetBacktrace flags pl _) as [written n]. cbn [fst snd].
  destruct (n =? 0); [reflexivity|].
  unfold RELEASE_ASSERT.
  destruct (int_add framesToSkip 2 <=? n); reflexivity.
Qed.

(** C1, as the code has it: when the primitive reports a nonzero frame count
    smaller than the total skip count, [captureStackTrace] halts on its
    release assertion and returns no trace, whatever the build (the
    assertion is live with [ASSERT_ENABLED] off as well as on). *)
Theorem capture_short_report_halts (flags : BuildFlags) (pl : Platform)
    (maxFrames framesToSkip : Z) :
  reported_frames flags pl maxFrames framesToSkip <> 0 ->
  reported_frames flags pl maxFrames framesToSkip < total_skip framesToSkip ->
  captureStackTrace flags pl maxFrames framesToSkip = Crashed.
Proof.
  unfold reported_frames. intros Hnz Hlt.
  rewrite captureStackTrace_cases. cbv zeta.
  apply Z.eqb_neq in Hnz. rewrite Hnz.
  apply Z.leb_gt in Hlt. rewrite Hlt. reflexivity.
Qed.

Lemma capture_short_report_halts_witness :
  reported_frames linux_release (sample_platform 1) 1 1000 <> 0 /\
  reported_frames linux_release (sample_platform 1) 1 1000 < total_skip 1000 /\
  captureStackTrace linux_release (sample_platform 1) 1 1000 = Crashed.
Proof.
  split; [vm_compute; discriminate|].
  split; [vm_compute; reflexivity|].
  apply (capture_short_report_halts linux_release (sample_platform 1) 1 1000).
  - vm_compute; discriminate.
  - vm_compute; reflexivity.
Defined.

(** C1, counterexample: a production build with [maxFrames = 1] and
    [framesToSkip = 1000] on a stack five frames deep.  The primitive reports
    5 frames, fewer than the 1002 to skip; the call halts instead of
    returning a trace of size 0. *)
Lemma capture_skip_beyond_depth_not_clamped :
  ASSERT_ENABLED linux_release = false /\
  reported_frames linux_release (sample_platform 1) 1 1000 = 5 /\
  total_skip 1000 = 1002 /\
  captureStackTrace linux_release (sample_platform 1) 1 1000 = Crashed /\
  ~ (exists t, captureStackTrace linux_release (sample_platform 1) 1 1000
               = Returned t /\ m_size t = 0).
Proof.
  repeat split; try (vm_compute; reflexivity).
  intros [t [H _]]. vm_compute in H. discriminate H.
Qed.

(** Size and capacity of a returned trace, for any [int] arguments, when the
    primitive reports no more frames than it was asked for. *)
Lemma capture_returned_bounds (flags : BuildFlags) (pl : Platform)
    (maxFrames framesToSkip : Z) (t : StackTrace) :
  in_int maxFrames -> in_int framesToSkip ->
  reported_frames flags pl maxFrames framesToSkip
    <= Z.max 0 (requested_frames maxFrames framesToSkip) ->
  captureStackTrace flags pl maxFrames framesToSkip = Returned t ->
  m_capacity t = Z.max 1 maxFrames /\ 0 <= m_size t <= Z.max 1 maxFrames.
Proof.
  unfold reported_frames. intros Hmax Hskip Hle.
  rewrite captureStackTrace_cases. cbv zeta.
  pose proof (WTFGetBacktrace_nonneg flags pl
                (requested_frames maxFrames framesToSkip)) as Hnn.
  destruct (WTFGetBacktrace flags pl _) as [written n]. cbn [fst snd] in *.
  destruct (Z.eqb_spec n 0) as [->|Hnz].
  - intros [= <-]. cbn. lia.
  - destruct (Z.leb_spec (total_skip framesToSkip) n) as [Hge|Hlt];
      [|discriminate].
    intros [= <-]. cbn [m_capacity m_size]. split; [reflexivity|].
    revert Hle Hge. unfold requested_frames, total_skip, int_add, int_sub.
    pose proof (int_wrap_range (framesToSkip + 2)) as R1.
    destruct (int_wrap_shift (framesToSkip + 2)) as [k1 E1].
    set (skip := int_wrap (framesToSkip + 2)) in *.
    pose proof (int_wrap_range (Z.max 1 maxFrames + skip)) as R2.
    destruct (int_wrap_shift (Z.max 1 maxFrames + skip)) as [k2 E2].
    set (req := int_wrap (Z.max 1 maxFrames + skip)) in *.
    pose proof (int_wrap_range (n - skip)) as R3.
    destruct (int_wrap_shift (n - skip)) as [k3 E3].
    set (size := int_wrap (n - skip)) in *.
    unfold in_int, INT_MIN, INT_MAX in *. intros Hle Hge. lia.
Qed.

(** C2: for [maxFrames >= 1] and [framesToSkip >= 0], with a primitive that
    reports at most the count it was asked for, a call to [captureStackTrace]
    either returns a trace whose size lies between 0 and [maxFrames], or
    halts, and it halts only on a nonzero report below the total skip
    count. *)
Theorem capture_size_le_maxFrames (flags : BuildFlags) (pl : Platform)
    (maxFrames framesToSkip : Z) :
  1 <= maxFrames <= INT_MAX -> 0 <= framesToSkip <= INT_MAX ->
  reported_frames flags pl maxFrames framesToSkip
    <= Z.max 0 (requested_frames maxFrames framesToSkip) ->
  match captureStackTrace flags pl maxFrames framesToSkip with
  | Returned t => 0 <= m_size t <= maxFrames
  | Crashed =>
      0 < reported_frames flags pl maxFrames framesToSkip
        < total_skip framesToSkip
  end.
Proof.
  intros Hmax Hskip Hle.
  destruct (captureStackTrace flags pl maxFrames framesToSkip) as [t|] eqn:E.
  - destruct (capture_returned_bounds flags pl maxFrames framesToSkip t)
      as [_ Hsize]; unfold in_int, INT_MIN, INT_MAX in *; try lia; assumption.
  - revert E. rewrite captureStackTrace_cases. cbv zeta.
    unfold reported_frames.
    pose proof (WTFGetBacktrace_nonneg flags pl
                  (requested_frames maxFrames framesToSkip)) as Hnn.
    destruct (Z.eqb_spec (snd (WTFGetBacktrace flags pl
                (requested_frames maxFrames framesToSkip))) 0); [discriminate|].
    destruct (Z.leb_spec (total_skip framesToSkip)
                (snd (WTFGetBacktrace flags pl
                   (requested_frames maxFrames framesToSkip))));
      [discriminate|].
    intros _. lia.
Qed.

Lemma capture_size_le_maxFrames_witness :
  exists t, captureStackTrace linux_release (sample_platform 1) 2 1 = Returned t
            /\ 0 <= m_size t <= 2.
Proof.
  pose proof (capture_size_le_maxFrames linux_release (sample_platform 1) 2 1)
    as H.
  assert (H1 : 1 <= 2 <= INT_MAX) by (unfold INT_MAX; lia).
  assert (H2 : 0 <= 1 <= INT_MAX) by (unfold INT_MAX; lia).
  assert (H3 : reported_frames linux_release (sample_platform 1) 2 1
               <= Z.max 0 (requested_frames 2 1))
    by (vm_compute; discriminate).
  specialize (H H1 H2 H3).
  eexists. split; [vm_compute; reflexivity|exact H].
Defined.

(** C3: in a build with neither [backtrace] nor the Windows primitive,
    [WTFGetBacktrace] reports zero frames for every request, and
    [captureStackTrace] returns (it does not halt) a trace of size 0, for
    every [maxFrames] and [framesToSkip] and in debug and production builds
    alike. *)
Theorem capture_without_backtrace_is_empty (flags : BuildFlags) (pl : Platform)
    (maxFrames framesToSkip : Z) :
  HAVE_BACKTRACE flags = false -> OS_WINDOWS flags = false ->
  (forall size, WTFGetBacktrace flags pl size = ([], 0)) /\
  exists t, captureStackTrace flags pl maxFrames framesToSkip = Returned t
            /\ m_size t = 0.
Proof.
  intros Hbt Hwin.
  assert (Hzero : forall size, WTFGetBacktrace flags pl size = ([], 0)).
  { intros size. unfold WTFGetBacktrace. rewrite Hbt, Hwin. reflexivity. }
  split; [exact Hzero|].
  rewrite captureStackTrace_cases. cbv zeta. rewrite Hzero. cbn.
  eexists. split; reflexivity.
Qed.

Lemma capture_without_backtrace_is_empty_witness :
  exists t, captureStackTrace bare_release (sample_platform 1) 10 3 = Returned t
            /\ m_size t = 0.
Proof.
  exact (proj2 (capture_without_backtrace_is_empty bare_release
                  (sample_platform 1) 10 3 eq_refl eq_refl)).
Defined.

(** ** The libbacktrace state and [symbolize] *)

Lemma backtraceState_initializes (pl : Platform) (p : Process) :
  backtraceState_static (snd (backtraceState pl p))
  = Some (fst (backtraceState pl p)).
Proof.
  unfold backtraceState.
  destruct (backtraceState_static p) as [state|] eqn:E; cbn; auto.
Qed.

Lemma backtraceState_again (pl : Platform) (p : Process)
    (state : backtrace_state_ptr) :
  backtraceState_static p = Some state -> backtraceState pl p = (state, p).
Proof. unfold backtraceState. intros ->. reflexivity. Qed.

(** Calling the accessor a second time changes nothing. *)
Lemma backtraceState_stable (pl : Platform) (p : Process) :
  backtraceState pl (snd (backtraceState pl p))
  = (fst (backtraceState pl p), snd (backtraceState pl p)).
Proof. apply backtraceState_again, backtraceState_initializes. Qed.

Lemma symbolize_address_initialized (pl : Platform) (p : Process)
    (state : backtrace_state_ptr) (pc : address) :
  backtraceState_static p = Some state ->
  symbolize_address pl state p pc
  = (name_or_placeholder pl (precise_then_coarse pl state pc), p).
Proof.
  intros Hp. unfold symbolize_address, precise_then_coarse.
  destruct (backtrace_pcinfo pl state pc) as [name|].
  - cbn. unfold demangled_or_raw. destruct (cxa_demangle pl name); reflexivity.
  - rewrite (backtraceState_again pl p state Hp).
    destruct (backtrace_syminfo pl state pc) as [name|]; cbn; [|reflexivity].
    unfold demangled_or_raw. destruct (cxa_demangle pl name); reflexivity.
Qed.

Lemma symbolize_loop_initialized (pl : Platform) (state : backtrace_state_ptr)
    (addresses : nat -> address) (p : Process) :
  backtraceState_static p = Some state ->
  forall (remaining i : nat) (symbols : list string),
    symbolize_loop pl state addresses remaining i p symbols
    = (symbols ++ map (fun j => name_or_placeholder pl
                                  (precise_then_coarse pl state (addresses j)))
                      (seq i remaining), p).
Proof.
  intros Hp. induction remaining as [|remaining IH]; intros i symbols.
  - cbn. rewrite app_nil_r. reflexivity.
  - cbn [symbolize_loop seq map].
    rewrite (symbolize_address_initialized pl p state _ Hp).
    rewrite IH, <- app_assoc. reflexivity.
Qed.

Lemma symbolize_eq (pl : Platform) (p : Process) (addresses : nat -> address)
    (size : Z) :
  symbolize pl p addresses size
  = (if fst (backtraceState pl p) =? 0 then None
     else Some (map (fun i => name_or_placeholder pl
                     (precise_then_coarse pl (fst (backtraceState pl p))
                        (addresses i)))
                  (seq 0 (Z.to_nat size))),
     snd (backtraceState pl p)).
Proof.
  unfold symbolize.
  pose proof (backtraceState_initializes pl p) as Hinit.
  destruct (backtraceState pl p) as [state p1]. cbn [fst snd] in *.
  destruct (state =? 0); [reflexivity|].
  rewrite (symbolize_loop_initialized pl state addresses p1 Hinit).
  reflexivity.
Qed.

(** C6: under Strategy A, [symbolize] returns nothing at all when the
    process-wide state is null, and otherwise returns, address by address,
    the name found by the precise lookup, or, only when that lookup gave no
    name, the one found by the symbol-table lookup (demangled when possible,
    [???] when both lookups fail). *)
Theorem symbolize_precise_then_coarse (pl : Platform) (p : Process)
    (addresses : nat -> address) (size : Z) :
  let state := fst (backtraceState pl p) in
  fst (symbolize pl p addresses size)
  = if state =? 0 then None
    else Some (map (fun i => name_or_placeholder pl
                    (match backtrace_pcinfo pl state (addresses i) with
                     | Some name => Some name
                     | None => backtrace_syminfo pl state (addresses i)
                     end))
                 (seq 0 (Z.to_nat size))).
Proof. cbv zeta. rewrite symbolize_eq. reflexivity. Qed.

(** ** Line formatting *)

Lemma format_s_or_empty (s : option string) :
  format_s (or_empty s) = text_or_empty s.
Proof. destruct s; reflexivity. Qed.

Lemma or_empty_idempotent (s : option string) :
  or_empty (or_empty s) = or_empty s.
Proof. destruct s; reflexivity. Qed.

Lemma demangle_eq (flags : BuildFlags) (pl : Platform) (pc : address) :
  demangle flags pl pc
  = match (if HAVE_DLADDR flags then nearest_symbol pl pc else None) with
    | Some raw => Some {| mangledName := Some raw;
                          demangledName := cxa_demangle pl raw |}
    | None => None
    end.
Proof.
  unfold demangle, nearest_symbol.
  destruct (HAVE_DLADDR flags); [|reflexivity].
  destruct (dladdr pl pc) as [[[raw|]]|]; reflexivity.
Qed.

Section DumpFacts.

Variable stack : StackTrace -> nat -> address.
Variable flags : BuildFlags.
Variable pl : Platform.

(** One iteration writes one string: the line of the frame. *)
Lemma dump_frame_line (t : StackTrace) (indentString : option string)
    (symbols : list string) (i : nat) (out : PrintStream) :
  Z.of_nat i < INT_MAX ->
  dump_frame stack flags pl t (or_empty indentString) symbols i out
  = out ++ [frame_line stack flags pl t indentString symbols i].
Proof.
  intros Hi. unfold dump_frame, frame_line, frame_name.
  rewrite demangle_eq.
  assert (Hnum : int_add (Z.of_nat i) 1 = Z.of_nat i + 1).
  { apply int_wrap_small. unfold in_int, INT_MIN, INT_MAX in *. lia. }
  rewrite Hnum.
  unfold printf_named, printf_bare.
  rewrite !format_s_or_empty.
  destruct (if HAVE_DLADDR flags then nearest_symbol pl (stack t i) else None)
    as [raw|].
  - cbn [mangledName demangledName is_set orb].
    unfold demangled_or_raw.
    destruct (cxa_demangle pl raw) as [readable|]; reflexivity.
  - destruct (HAVE_BACKTRACE_SYMBOLS flags); [reflexivity|].
    destruct (OS_WINDOWS flags); [|reflexivity].
    destruct (SymFromAddress pl (stack t i)); reflexivity.
Qed.

Lemma dump_loop_lines (t : StackTrace) (indentString : option string)
    (symbols : list string) :
  forall (remaining i : nat) (out : PrintStream),
    Z.of_nat (i + remaining) <= INT_MAX ->
    dump_loop stack flags pl t (or_empty indentString) symbols remaining i out
    = out ++ map (frame_line stack flags pl t indentString symbols)
                 (seq i remaining).
Proof.
  induction remaining as [|remaining IH]; intros i out Hbound.
  - cbn. rewrite app_nil_r. reflexivity.
  - cbn [dump_loop seq map].
    rewrite dump_frame_line by lia.
    rewrite IH by lia. rewrite <- app_assoc. reflexivity.
Qed.

(** [dump] in one equation. *)
Lemma dump_eq (p : Process) (t : StackTrace) (out : PrintStream)
    (indentString : option string) :
  m_size t <= INT_MAX ->
  dump stack flags pl p t out indentString
  = (snd (dump_symbols stack flags pl p t),
     match fst (dump_symbols stack flags pl p t) with
     | Some symbols =>
         out ++ map (frame_line stack flags pl t indentString symbols)
                    (seq 0 (Z.to_nat (m_size t)))
     | None => out
     end).
Proof.
  intros Hsize. unfold dump.
  destruct (dump_symbols stack flags pl p t) as [[symbols|] p1];
    cbn [fst snd]; [|reflexivity].
  rewrite dump_loop_lines by (unfold INT_MAX in *; lia). reflexivity.
Qed.

End DumpFacts.

Section DumpProperties.

Variable stack : StackTrace -> nat -> address.
Variable flags : BuildFlags.
Variable pl : Platform.

(** Every [printf] of the loop appends to the stream. *)
Lemma dump_frame_app (t : StackTrace) (indentString : option string)
    (symbols : list string) (i : nat) (out : PrintStream) :
  dump_frame stack flags pl t indentString symbols i out
  = out ++ dump_frame stack flags pl t indentString symbols i [].
Proof.
  unfold dump_frame.
  destruct (demangle flags pl (stack t i)) as [entry|];
    match goal with
    | |- context [if ?c then _ else _] => destruct c
    end; reflexivity.
Qed.

Lemma dump_loop_app (t : StackTrace) (indentString : option string)
    (symbols : list string) :
  forall (remaining i : nat) (out : PrintStream),
    dump_loop stack flags pl t indentString symbols remaining i out
    = out ++ dump_loop stack flags pl t indentString symbols remaining i [].
Proof.
  induction remaining as [|remaining IH]; intros i out.
  - cbn. rewrite app_nil_r. reflexivity.
  - cbn [dump_loop]. rewrite IH.
    rewrite (IH (S i) (dump_frame stack flags pl t indentString symbols i [])).
    rewrite (dump_frame_app t indentString symbols i out).
    rewrite app_assoc. reflexivity.
Qed.

(** When the symbol array cannot be obtained. *)
Lemma dump_symbols_null (p : Process) (t : StackTrace) :
  fst (dump_symbols stack flags pl p t) = None <->
  (USE_LIBBACKTRACE flags = true /\ fst (backtraceState pl p) = 0) \/
  (USE_LIBBACKTRACE flags = false /\ HAVE_BACKTRACE_SYMBOLS flags = true /\
   backtrace_symbols pl (map (stack t) (seq 0 (Z.to_nat (m_size t)))) = None).
Proof.
  unfold dump_symbols. rewrite symbolize_eq.
  destruct (USE_LIBBACKTRACE flags).
  - cbn [fst]. destruct (Z.eqb_spec (fst (backtraceState pl p)) 0) as [E|E].
    + split; auto.
    + split; [discriminate|]. intros [[_ H]|[H _]]; [contradiction|discriminate].
  - destruct (HAVE_BACKTRACE_SYMBOLS flags); cbn [fst].
    + split; [auto|]. intros [[H _]|[_ [_ H]]]; [discriminate|exact H].
    + split; [discriminate|].
      intros [[H _]|[_ [H _]]]; discriminate.
Qed.

(** Setting up the symbol array a second time gives the same array and
    leaves the process as the first time left it. *)
Lemma dump_symbols_stable (p : Process) (t : StackTrace) :
  dump_symbols stack flags pl (snd (dump_symbols stack flags pl p t)) t
  = dump_symbols stack flags pl p t.
Proof.
  unfold dump_symbols.
  destruct (USE_LIBBACKTRACE flags).
  - rewrite !symbolize_eq. cbn [fst snd].
    rewrite backtraceState_stable. reflexivity.
  - destruct (HAVE_BACKTRACE_SYMBOLS flags); reflexivity.
Qed.

Lemma dump_process (p : Process) (t : StackTrace) (out : PrintStream)
    (indentString : option string) :
  fst (dump stack flags pl p t out indentString)
  = snd (dump_symbols stack flags pl p t).
Proof.
  unfold dump.
  destruct (dump_symbols stack flags pl p t) as [[symbols|] p1]; reflexivity.
Qed.

(** The strings one [dump] call appends. *)
Lemma dump_appends (p : Process) (t : StackTrace) (out : PrintStream)
    (indentString : option string) :
  snd (dump stack flags pl p t out indentString)
  = out ++ snd (dump stack flags pl p t [] indentString).
Proof.
  unfold dump.
  destruct (dump_symbols stack flags pl p t) as [[symbols|] p1]; cbn [snd].
  - apply dump_loop_app.
  - rewrite app_nil_r. reflexivity.
Qed.

End DumpProperties.

(** C4, as the code has it: for a trace whose size fits an [int], [dump]
    writes nothing when the symbol array cannot be obtained (null libbacktrace
    state, or a null result of [backtrace_symbols]); otherwise it appends
    exactly [m_size] strings, in index order, and the string for index [i] is
    the line made of the prefix, the indent, the frame number [i + 1], the
    address, and the resolved name when there is one; when there is none the
    line ends after the address. *)
Theorem dump_writes_one_line_per_frame
    (stack : StackTrace -> nat -> address) (flags : BuildFlags)
    (pl : Platform) (p : Process) (t : StackTrace) (out : PrintStream)
    (indentString : option string) :
  m_size t <= INT_MAX ->
  match fst (dump_symbols stack flags pl p t) with
  | None => snd (dump stack flags pl p t out indentString) = out
  | Some symbols =>
      exists lines,
        snd (dump stack flags pl p t out indentString) = out ++ lines /\
        List.length lines = Z.to_nat (m_size t) /\
        forall i, (i < Z.to_nat (m_size t))%nat ->
          nth i lines EmptyString
          = frame_line stack flags pl t indentString symbols i
  end.
Proof.
  intros Hsize. rewrite dump_eq by assumption. cbn [snd].
  destruct (fst (dump_symbols stack flags pl p t)) as [symbols|];
    [|reflexivity].
  eexists. split; [reflexivity|]. split.
  - rewrite length_map, length_seq. reflexivity.
  - intros i Hi.
    rewrite nth_indep with (d' := frame_line stack flags pl t indentString
                                     symbols 0%nat)
      by (rewrite length_map, length_seq; exact Hi).
    rewrite map_nth, seq_nth by exact Hi. reflexivity.
Qed.

Lemma dump_writes_one_line_per_frame_witness :
  exists lines,
    snd (dump sample_stack linux_release (sample_platform 1) fresh_process
           sample_trace [] (Some "  ")) = [] ++ lines /\
    List.length lines = 3%nat /\
    forall i, (i < 3)%nat ->
      nth i lines EmptyString
      = frame_line sample_stack linux_release (sample_platform 1) sample_trace
          (Some "  ") ["foo()"; "main"; "???"] i.
Proof.
  assert (H : m_size sample_trace <= INT_MAX) by (vm_compute; discriminate).
  exact (dump_writes_one_line_per_frame sample_stack linux_release
           (sample_platform 1) fresh_process sample_trace [] (Some "  ") H).
Defined.

(** C4, counterexample: a trace of size 3.  With libbacktrace and a null
    state, [dump] writes no line at all; in a build with [dladdr] only, the
    frame whose address has no symbol gets a line that ends after the
    address, with no placeholder. *)
Lemma dump_lines_counterexample :
  m_size sample_trace = 3 /\
  snd (dump sample_stack linux_release (sample_platform 0) fresh_process
         sample_trace [] None) = [] /\
  snd (dump sample_stack dladdr_release (sample_platform 1) fresh_process
         sample_trace [] None)
  = [("1   0x4128 foo()" ++ newline)%string;
     ("2   0x4144 main" ++ newline)%string;
     ("3   0x4160" ++ newline)%string].
Proof. repeat split; vm_compute; reflexivity. Qed.

(** C5: two successive [dump] calls on one trace, the second starting from
    the process state the first one left, append the same strings to the
    streams they write to.  The trace is an input of [dump] only: the call
    returns the process state and the stream, and the process state the
    second call leaves is the one the first call left. *)
Theorem dump_twice_same_output
    (stack : StackTrace -> nat -> address) (flags : BuildFlags)
    (pl : Platform) (p : Process) (t : StackTrace) (out1 out2 : PrintStream)
    (indentString : option string) :
  let first := dump stack flags pl p t out1 indentString in
  let second := dump stack flags pl (fst first) t out2 indentString in
  exists lines,
    snd first = out1 ++ lines /\
    snd second = out2 ++ lines /\
    fst second = fst first.
Proof.
  cbv zeta.
  exists (snd (dump stack flags pl p t [] indentString)).
  split; [apply dump_appends|].
  rewrite (dump_appends stack flags pl _ t out2).
  rewrite !dump_process.
  split.
  - f_equal. unfold dump. rewrite dump_symbols_stable. reflexivity.
  - rewrite dump_symbols_stable. reflexivity.
Qed.

(** C7: in a build with [dladdr], for the address of any frame: when the
    nearest-symbol query gives no symbol name, [demangle] returns nothing;
    when it gives a raw name, the line written for the frame ends with the
    demangled form if the demangler produced one and with the raw name
    otherwise. *)
Theorem dladdr_line_prefers_demangled
    (stack : StackTrace -> nat -> address) (flags : BuildFlags)
    (pl : Platform) (t : StackTrace) (indentString : option string)
    (symbols : list string) (i : nat) (out : PrintStream) :
  HAVE_DLADDR flags = true ->
  match nearest_symbol pl (stack t i) with
  | None => demangle flags pl (stack t i) = None
  | Some raw =>
      dump_frame stack flags pl t indentString symbols i out
      = out ++ [(format_s (or_empty (m_prefix t)) ++ format_s indentString
                 ++ format_d_left3 (int_add (Z.of_nat i) 1) ++ " "
                 ++ format_pointer pl (stack t i) ++ " "
                 ++ match cxa_demangle pl raw with
                    | Some readable => readable
                    | None => raw
                    end
                 ++ newline)%string]
  end.
Proof.
  intros Hdl. unfold dump_frame. rewrite demangle_eq, Hdl.
  destruct (nearest_symbol pl (stack t i)) as [raw|]; [|reflexivity].
  cbn [mangledName demangledName is_set orb]. unfold printf_named.
  destruct (cxa_demangle pl raw) as [readable|]; reflexivity.
Qed.

Lemma dladdr_line_prefers_demangled_witness :
  dump_frame sample_stack dladdr_release (sample_platform 1) sample_trace
    (Some "") [] 0 []
  = [("1   0x4128 foo()" ++ newline)%string] /\
  dump_frame sample_stack dladdr_release (sample_platform 1) sample_trace
    (Some "") [] 1 []
  = [("2   0x4144 main" ++ newline)%string] /\
  demangle dladdr_release (sample_platform 1)
    (sample_stack sample_trace 2) = None.
Proof.
  split; [|split].
  - exact (dladdr_line_prefers_demangled sample_stack dladdr_release
             (sample_platform 1) sample_trace (Some "") [] 0 [] eq_refl).
  - exact (dladdr_line_prefers_demangled sample_stack dladdr_release
             (sample_platform 1) sample_trace (Some "") [] 1 [] eq_refl).
  - exact (dladdr_line_prefers_demangled sample_stack dladdr_release
             (sample_platform 1) sample_trace (Some "") [] 2 [] eq_refl).
Defined.

(** C8: [dump] on a trace of size 0 leaves the stream as it was, in every
    build; [dump] has no halting outcome. *)
Theorem dump_empty_trace_writes_nothing
    (stack : StackTrace -> nat -> address) (flags : BuildFlags)
    (pl : Platform) (p : Process) (t : StackTrace) (out : PrintStream)
    (indentString : option string) :
  m_size t = 0 ->
  snd (dump stack flags pl p t out indentString) = out.
Proof.
  intros Hsize. unfold dump.
  destruct (dump_symbols stack flags pl p t) as [[symbols|] p1]; cbn [snd];
    [|reflexivity].
  rewrite Hsize. reflexivity.
Qed.

Lemma dump_empty_trace_writes_nothing_witness :
  snd (dump sample_stack linux_release (sample_platform 1) fresh_process
         empty_trace ["earlier output"] (Some "  ")) = ["earlier output"].
Proof.
  exact (dump_empty_trace_writes_nothing sample_stack linux_release
           (sample_platform 1) fresh_process empty_trace ["earlier output"]
           (Some "  ") eq_refl).
Defined.

(** ** Invariants of a captured trace *)

Lemma perform_keeps_size_and_capacity
    (stack : StackTrace -> nat -> address) (flags : BuildFlags)
    (pl : Platform) (w : World) (op : Operation) :
  m_size (w_trace (perform stack flags pl w op)) = m_size (w_trace w) /\
  m_capacity (w_trace (perform stack flags pl w op)) = m_capacity (w_trace w).
Proof.
  destruct op as [indentString|prefix]; cbn [perform].
  - destruct (dump stack flags pl (w_process w) (w_trace w) (w_out w)
                indentString) as [p out].
    cbn. auto.
  - cbn. auto.
Qed.

Lemma perform_all_keeps_size_and_capacity
    (stack : StackTrace -> nat -> address) (flags : BuildFlags)
    (pl : Platform) (ops : list Operation) :
  forall w : World,
    m_size (w_trace (perform_all stack flags pl w ops)) = m_size (w_trace w) /\
    m_capacity (w_trace (perform_all stack flags pl w ops))
    = m_capacity (w_trace w).
Proof.
  unfold perform_all.
  induction ops as [|op ops IH]; intros w; cbn [fold_left]; [auto|].
  destruct (IH (perform stack flags pl w op)) as [Hs Hc].
  destruct (perform_keeps_size_and_capacity stack flags pl w op) as [Hs' Hc'].
  split; congruence.
Qed.

(** C9: a trace returned by [captureStackTrace] (with a primitive that
    reports at most the count it was asked for) has a capacity equal to
    [maxFrames] coerced to at least 1, hence at least 1, and a size between 0
    and that capacity; and after any sequence of dumps and prefix settings
    on it, started in any process state and on any stream, its size and
    capacity are the ones capture gave it. *)
Theorem captured_trace_invariants
    (stack : StackTrace -> nat -> address) (flags : BuildFlags)
    (pl : Platform) (maxFrames framesToSkip : Z) (t : StackTrace) :
  in_int maxFrames -> in_int framesToSkip ->
  reported_frames flags pl maxFrames framesToSkip
    <= Z.max 0 (requested_frames maxFrames framesToSkip) ->
  captureStackTrace flags pl maxFrames framesToSkip = Returned t ->
  m_capacity t = Z.max 1 maxFrames /\
  1 <= m_capacity t /\
  0 <= m_size t <= m_capacity t /\
  forall (ops : list Operation) (p : Process) (out : PrintStream),
    let w := perform_all stack flags pl
               {| w_trace := t; w_process := p; w_out := out |} ops in
    m_size (w_trace w) = m_size t /\ m_capacity (w_trace w) = m_capacity t.
Proof.
  intros Hmax Hskip Hle Hcap.
  destruct (capture_returned_bounds flags pl maxFrames framesToSkip t
              Hmax Hskip Hle Hcap) as [Hc Hs].
  split; [exact Hc|]. split; [lia|]. split; [lia|].
  intros ops p out. cbv zeta.
  apply (perform_all_keeps_size_and_capacity stack flags pl ops
           {| w_trace := t; w_process := p; w_out := out |}).
Qed.

Lemma captured_trace_invariants_witness :
  m_capacity captured_sample = Z.max 1 2 /\
  1 <= m_capacity captured_sample /\
  0 <= m_size captured_sample <= m_capacity captured_sample /\
  forall (ops : list Operation) (p : Process) (out : PrintStream),
    let w := perform_all sample_stack linux_release (sample_platform 1)
               {| w_trace := captured_sample; w_process := p; w_out := out |}
               ops in
    m_size (w_trace w) = m_size captured_sample /\
    m_capacity (w_trace w) = m_capacity captured_sample.
Proof.
  apply (captured_trace_invariants sample_stack linux_release
           (sample_platform 1) 2 1 captured_sample).
  - unfold in_int, INT_MIN, INT_MAX; lia.
  - unfold in_int, INT_MIN, INT_MAX; lia.
  - vm_compute; discriminate.
  - vm_compute; reflexivity.
Defined.

(** ** Null indent and null prefix *)

Section NullStrings.

Variable stack : StackTrace -> nat -> address.
Variable flags : BuildFlags.
Variable pl : Platform.

Variables t t' : StackTrace.
Hypothesis same_size : m_size t' = m_size t.
Hypothesis same_stack : forall i, stack t' i = stack t i.
Hypothesis same_prefix_text : or_empty (m_prefix t') = or_empty (m_prefix t).

Lemma dump_symbols_same (p : Process) :
  dump_symbols stack flags pl p t' = dump_symbols stack flags pl p t.
Proof.
  unfold dump_symbols. rewrite !symbolize_eq, same_size.
  rewrite (map_ext (stack t') (stack t) same_stack).
  rewrite (map_ext
             (fun i => name_or_placeholder pl
                (precise_then_coarse pl (fst (backtraceState pl p))
                   (stack t' i)))
             (fun i => name_or_placeholder pl
                (precise_then_coarse pl (fst (backtraceState pl p))
                   (stack t i))))
    by (intros i; rewrite same_stack; reflexivity).
  reflexivity.
Qed.

Lemma dump_frame_same (indentString : option string) (symbols : list string)
    (i : nat) (out : PrintStream) :
  dump_frame stack flags pl t' indentString symbols i out
  = dump_frame stack flags pl t indentString symbols i out.
Proof.
  unfold dump_frame. rewrite same_stack, same_prefix_text. reflexivity.
Qed.

Lemma dump_loop_same (indentString : option string) (symbols : list string) :
  forall (remaining i : nat) (out : PrintStream),
    dump_loop stack flags pl t' indentString symbols remaining i out
    = dump_loop stack flags pl t indentString symbols remaining i out.
Proof.
  induction remaining as [|remaining IH]; intros i out; cbn [dump_loop];
    [reflexivity|].
  rewrite dump_frame_same. apply IH.
Qed.

Lemma dump_same (p : Process) (out : PrintStream)
    (indentString : option string) :
  dump stack flags pl p t' out indentString
  = dump stack flags pl p t out indentString.
Proof.
  unfold dump. rewrite dump_symbols_same, same_size.
  destruct (dump_symbols stack flags pl p t) as [[symbols|] p1];
    [|reflexivity].
  rewrite dump_loop_same. reflexivity.
Qed.

End NullStrings.

(** C10: [dump] called with a null indent does what it does with the empty
    string as indent; and a trace whose prefix is null is dumped as a trace
    with the same size and the same stack whose prefix is the empty string.
    Neither null pointer reaches a [%s] conversion. *)
Theorem dump_null_indent_and_prefix
    (stack : StackTrace -> nat -> address) (flags : BuildFlags)
    (pl : Platform) (p : Process) (t t' : StackTrace) (out : PrintStream)
    (indentString : option string) :
  m_prefix t = None -> m_prefix t' = Some EmptyString ->
  m_size t' = m_size t -> (forall i, stack t' i = stack t i) ->
  dump stack flags pl p t out None
  = dump stack flags pl p t out (Some EmptyString) /\
  dump stack flags pl p t out indentString
  = dump stack flags pl p t' out indentString.
Proof.
  intros Hnull Hempty Hsize Hstack. split.
  - unfold dump.
    destruct (dump_symbols stack flags pl p t) as [[symbols|] p1]; reflexivity.
  - symmetry. apply dump_same; try assumption.
    rewrite Hnull, Hempty. reflexivity.
Qed.

Lemma dump_null_indent_and_prefix_witness :
  dump sample_stack linux_release (sample_platform 1) fresh_process
    sample_trace [] None
  = dump sample_stack linux_release (sample_platform 1) fresh_process
      sample_trace [] (Some EmptyString) /\
  dump sample_stack linux_release (sample_platform 1) fresh_process
    sample_trace [] None
  = dump sample_stack linux_release (sample_platform 1) fresh_process
      sample_trace_empty_prefix [] None.
Proof.
  apply (dump_null_indent_and_prefix sample_stack linux_release
           (sample_platform 1) fresh_process sample_trace
           sample_trace_empty_prefix [] None).
  - reflexivity.
  - reflexivity.
  - reflexivity.
  - intros i. reflexivity.
Defined.

(** * Further properties of capture *)

(** X1: compiling [ASSERT] in or out does not change what
    [captureStackTrace] does: the capacity it hands to [instanceSize] is
    never below 1, so the assertion of [instanceSize] never fires there. *)
Theorem capture_same_in_debug_and_release (flags : BuildFlags) (pl : Platform)
    (maxFrames framesToSkip : Z) (enabled : bool) :
  captureStackTrace (with_ASSERT_ENABLED flags enabled) pl maxFrames framesToSkip
  = captureStackTrace flags pl maxFrames framesToSkip.
Proof. rewrite !captureStackTrace_cases. reflexivity. Qed.



(** * Further properties of symbolization and dump *)

(** X3: a null libbacktrace state is permanent.  Once the process-wide state
    has been created null, [dump] in a libbacktrace build writes nothing and
    leaves the process as it is, for every trace, and on every platform,
    also one whose [backtrace_create_state] would now succeed. *)
Theorem null_state_is_permanent
    (stack : StackTrace -> nat -> address) (flags : BuildFlags)
    (pl : Platform) (p : Process) (t : StackTrace) (out : PrintStream)
    (indentString : option string) :
  USE_LIBBACKTRACE flags = true ->
  backtraceState_static p = Some 0 ->
  symbolize pl p (stack t) (m_size t) = (None, p) /\
  dump stack flags pl p t out indentString = (p, out).
Proof.
  intros Hlib Hnull.
  assert (Hsym : symbolize pl p (stack t) (m_size t) = (None, p)).
  { rewrite symbolize_eq, (backtraceState_again pl p 0 Hnull). reflexivity. }
  split; [exact Hsym|].
  unfold dump, dump_symbols. rewrite Hlib, Hsym. reflexivity.
Qed.

Lemma null_state_is_permanent_witness :
  symbolize (sample_platform 1) failed_process (sample_stack sample_trace)
    (m_size sample_trace) = (None, failed_process) /\
  dump sample_stack linux_release (sample_platform 1) failed_process
    sample_trace [] None = (failed_process, []).
Proof.
  exact (null_state_is_permanent sample_stack linux_release (sample_platform 1)
           failed_process sample_trace [] None eq_refl eq_refl).
Defined.


Lemma last_ascii_append (s s' : string) (c : ascii) :
  last_ascii s' = Some c -> last_ascii (s ++ s')%string = Some c.
Proof.
  intros H. induction s as [|a s IH]; cbn; [exact H|].
  rewrite IH. reflexivity.
Qed.

Lemma dump_frame_one_line
    (stack : StackTrace -> nat -> address) (flags : BuildFlags)
    (pl : Platform) (t : StackTrace) (indentString : option string)
    (symbols : list string) (i : nat) (out : PrintStream) :
  exists line,
    dump_frame stack flags pl t indentString symbols i out = out ++ [line] /\
    last_ascii line = Some newline_char.
Proof.
  unfold dump_frame.
  destruct (demangle flags pl (stack t i)) as [entry|];
    match goal with
    | |- context [if ?c then _ else _] => destruct c
    end; unfold printf_named, printf_bare;
    (eexists; split; [reflexivity|]);
    repeat apply last_ascii_append; reflexivity.
Qed.

Lemma dump_loop_whole_lines
    (stack : StackTrace -> nat -> address) (flags : BuildFlags)
    (pl : Platform) (t : StackTrace) (indentString : option string)
    (symbols : list string) :
  forall (remaining i : nat) (out : PrintStream),
  exists lines,
    dump_loop stack flags pl t indentString symbols remaining i out
    = out ++ lines /\
    List.length lines = remaining /\
    Forall (fun line => last_ascii line = Some newline_char) lines.
Proof.
  induction remaining as [|remaining IH]; intros i out.
  - exists []. cbn. rewrite app_nil_r. auto.
  - cbn [dump_loop].
    destruct (dump_frame_one_line stack flags pl t indentString symbols i out)
      as [line [-> Hline]].
    destruct (IH (S i) (out ++ [line])) as [lines [-> [Hlen Hall]]].
    exists (line :: lines). rewrite <- app_assoc. cbn.
    split; [reflexivity|]. split; [congruence|]. constructor; assumption.
Qed.

(** X5: for every trace, whatever its size field holds, [dump] keeps what
    the stream already contains and appends to it either nothing (the symbol
    array is null) or exactly max(0, m_size) strings, each of them ending in
    a newline. *)
Theorem dump_appends_whole_lines
    (stack : StackTrace -> nat -> address) (flags : BuildFlags)
    (pl : Platform) (p : Process) (t : StackTrace) (out : PrintStream)
    (indentString : option string) :
  exists lines,
    snd (dump stack flags pl p t out indentString) = out ++ lines /\
    List.length lines
    = (if is_set (fst (dump_symbols stack flags pl p t))
       then Z.to_nat (m_size t) else 0%nat) /\
    Forall (fun line => last_ascii line = Some newline_char) lines.
Proof.
  unfold dump.
  destruct (dump_symbols stack flags pl p t) as [[symbols|] p1];
    cbn [fst snd is_set].
  - apply dump_loop_whole_lines.
  - exists []. rewrite app_nil_r. auto.
Qed.

Lemma dump_frame_without_symbols
    (stack : StackTrace -> nat -> address) (flags : BuildFlags)
    (pl : Platform) (t : StackTrace) (indentString : option string)
    (symbols symbols' : list string) (i : nat) (out : PrintStream) :
  HAVE_BACKTRACE_SYMBOLS flags = false ->
  dump_frame stack flags pl t indentString symbols i out
  = dump_frame stack flags pl t indentString symbols' i out.
Proof. intros H. unfold dump_frame. rewrite H. reflexivity. Qed.

Lemma dump_loop_without_symbols
    (stack : StackTrace -> nat -> address) (flags : BuildFlags)
    (pl : Platform) (t : StackTrace) (indentString : option string)
    (symbols symbols' : list string) :
  HAVE_BACKTRACE_SYMBOLS flags = false ->
  forall (remaining i : nat) (out : PrintStream),
    dump_loop stack flags pl t indentString symbols remaining i out
    = dump_loop stack flags pl t indentString symbols' remaining i out.
Proof.
  intros H. induction remaining as [|remaining IH]; intros i out;
    cbn [dump_loop]; [reflexivity|].
  rewrite (dump_frame_without_symbols stack flags pl t indentString
             symbols symbols' i out H).
  apply IH.
Qed.

(** X6: in a build without [backtrace_symbols], the loop of [dump] never
    reads the symbol array, so what the two libbacktrace lookups answer has
    no influence on the output: changing both lookups leaves every line as
    it is. *)
Theorem dump_ignores_lookups_without_backtrace_symbols
    (stack : StackTrace -> nat -> address) (flags : BuildFlags)
    (pl : Platform) (p : Process) (t : StackTrace) (out : PrintStream)
    (indentString : option string)
    (pcinfo syminfo : backtrace_state_ptr -> address -> option string) :
  HAVE_BACKTRACE_SYMBOLS flags = false ->
  dump stack flags (with_lookups pl pcinfo syminfo) p t out indentString
  = dump stack flags pl p t out indentString.
Proof.
  intros Hsym. unfold dump, dump_symbols. rewrite Hsym.
  destruct (USE_LIBBACKTRACE flags); [|reflexivity].
  rewrite !symbolize_eq.
  change (backtraceState (with_lookups pl pcinfo syminfo) p)
    with (backtraceState pl p).
  destruct (fst (backtraceState pl p) =? 0); [reflexivity|].
  f_equal.
  apply (dump_loop_without_symbols stack flags pl t (or_empty indentString)
           _ _ Hsym).
Qed.

Lemma dump_ignores_lookups_without_backtrace_symbols_witness :
  dump sample_stack (sample_flags true false true true false false)
    (with_lookups (sample_platform 1) (fun _ _ => Some "f") (fun _ _ => None))
    fresh_process sample_trace [] None
  = dump sample_stack (sample_flags true false true true false false)
      (sample_platform 1) fresh_process sample_trace [] None.
Proof.
  exact (dump_ignores_lookups_without_backtrace_symbols sample_stack
           (sample_flags true false true true false false) (sample_platform 1)
           fresh_process sample_trace [] None
           (fun _ _ => Some "f") (fun _ _ => None) eq_refl).
Defined.

(** X7: in a build with libbacktrace and [backtrace_symbols], with a
    non-null libbacktrace state, the line of a frame for which the dynamic
    loader has no name shows what [symbolize] found for its address: the
    name of the precise lookup, else the name of the symbol-table lookup
    (demangled when possible), else the placeholder [???]. *)
Theorem libbacktrace_line_shows_lookup_or_placeholder
    (stack : StackTrace -> nat -> address) (flags : BuildFlags)
    (pl : Platform) (p : Process) (t : StackTrace)
    (indentString : option string) (i : nat) :
  USE_LIBBACKTRACE flags = true ->
  HAVE_BACKTRACE_SYMBOLS flags = true ->
  m_size t <= INT_MAX ->
  fst (backtraceState pl p) <> 0 ->
  (i < Z.to_nat (m_size t))%nat ->
  (if HAVE_DLADDR flags then nearest_symbol pl (stack t i) else None) = None ->
  nth i (snd (dump stack flags pl p t [] indentString)) EmptyString
  = (text_or_empty (m_prefix t) ++ text_or_empty indentString
     ++ format_d_left3 (Z.of_nat i + 1) ++ " "
     ++ format_pointer pl (stack t i) ++ " "
     ++ name_or_placeholder pl
          (match backtrace_pcinfo pl (fst (backtraceState pl p)) (stack t i) with
           | Some name => Some name
           | None =>
               backtrace_syminfo pl (fst (backtraceState pl p)) (stack t i)
           end)
     ++ newline)%string.
Proof.
  intros Hlib Hsym Hsize Hstate Hi Hdl.
  rewrite dump_eq by assumption. cbn [snd].
  unfold dump_symbols. rewrite Hlib, symbolize_eq. cbn [fst].
  apply Z.eqb_neq in Hstate. rewrite Hstate. cbn [app].
  set (symbols := map (fun j => name_or_placeholder pl
                     (precise_then_coarse pl (fst (backtraceState pl p))
                        (stack t j)))
                   (seq 0 (Z.to_nat (m_size t)))).
  rewrite nth_indep with (d' := frame_line stack flags pl t indentString
                                   symbols 0%nat)
    by (rewrite length_map, length_seq; exact Hi).
  rewrite map_nth, seq_nth by exact Hi. cbn [Nat.add].
  unfold frame_line, frame_name. rewrite Hdl, Hsym.
  subst symbols.
  rewrite nth_indep with (d' := name_or_placeholder pl
            (precise_then_coarse pl (fst (backtraceState pl p)) (stack t 0%nat)))
    by (rewrite length_map, length_seq; exact Hi).
  rewrite (map_nth (fun j => name_or_placeholder pl
             (precise_then_coarse pl (fst (backtraceState pl p)) (stack t j)))).
  rewrite seq_nth by exact Hi. reflexivity.
Qed.

Lemma libbacktrace_line_shows_lookup_or_placeholder_witness :
  nth 2 (snd (dump sample_stack linux_release (sample_platform 1)
                fresh_process sample_trace [] None)) EmptyString
  = ("3   0x4160 ???" ++ newline)%string.
Proof.
  apply (libbacktrace_line_shows_lookup_or_placeholder sample_stack
           linux_release (sample_platform 1) fresh_process sample_trace
           None 2).
  - reflexivity.
  - reflexivity.
  - vm_compute; discriminate.
  - vm_compute; discriminate.
  - vm_compute; lia.
  - reflexivity.
Defined.

(** X8: an entry returned by [demangle] always carries a raw name: it is
    returned only in a build with [dladdr], only when the dynamic loader
    knows a symbol name for the address, its mangled name is that name and
    its demangled name is what the demangler makes of it; in every other
    case [demangle] returns nothing. *)
Theorem demangle_entry_has_raw_name (flags : BuildFlags) (pl : Platform)
    (pc : address) :
  match demangle flags pl pc with
  | Some entry =>
      HAVE_DLADDR flags = true /\
      exists raw,
        nearest_symbol pl pc = Some raw /\
        mangledName entry = Some raw /\
        demangledName entry = cxa_demangle pl raw
  | None => HAVE_DLADDR flags = false \/ nearest_symbol pl pc = None
  end.
Proof.
  rewrite demangle_eq.
  destruct (HAVE_DLADDR flags); [|auto].
  destruct (nearest_symbol pl pc) as [raw|]; [|auto].
  split; [reflexivity|]. exists raw. auto.
Qed.

(** * Pending activity of an ActiveDOMObject *)

Section PendingActivityFacts.

Variable Derived : Type.
Variable ref deref : Derived -> Derived.
Variable virtualHasPendingActivity : Derived -> bool.

Implicit Types (h : Heap Derived) (o : ActiveDOMObject Derived).

Lemma store_same h (a : nat) o : store h a o a = o.
Proof. unfold store. rewrite Nat.eqb_refl. reflexivity. Qed.

Lemma store_other h (a b : nat) o : b <> a -> store h a o b = h b.
Proof.
  intros Hne. unfold store.
  destruct (Nat.eqb_spec b a); [contradiction|reflexivity].
Qed.

Lemma uint_wrap_small (z : Z) : 0 <= z <= UINT_MAX -> uint_wrap z = z.
Proof. unfold uint_wrap, UINT_MAX. intros Hz. apply Z.mod_small. lia. Qed.

Lemma ASSERT_true (flags : BuildFlags) : ASSERT flags true = Returned tt.
Proof. unfold ASSERT. destruct (ASSERT_ENABLED flags); reflexivity. Qed.

(** What one construction does to the heap. *)
Lemma PendingActivity_construct_heap (this : nat) h :
  0 <= m_pendingActivityInstanceCount (h this) < UINT_MAX ->
  let h1 := snd (PendingActivity_construct ref this h) in
  m_thisObject (fst (PendingActivity_construct ref this h)) = this /\
  m_pendingActivityInstanceCount (h1 this)
  = m_pendingActivityInstanceCount (h this) + 1 /\
  derived (h1 this) = ref (derived (h this)) /\
  forall other, other <> this -> h1 other = h other.
Proof.
  intros Hcount. cbn [PendingActivity_construct fst snd m_thisObject].
  rewrite !store_same. cbn.
  split; [reflexivity|]. split; [apply uint_wrap_small; lia|].
  split; [reflexivity|].
  intros other Hne. rewrite !store_other by exact Hne. reflexivity.
Qed.

(** What one destruction does to the heap. *)
Lemma PendingActivity_destroy_heap (flags : BuildFlags) (a : PendingActivity)
    h :
  0 < m_pendingActivityInstanceCount (h (m_thisObject a)) <= UINT_MAX ->
  exists h2,
    PendingActivity_destroy deref flags a h = Returned h2 /\
    m_pendingActivityInstanceCount (h2 (m_thisObject a))
    = m_pendingActivityInstanceCount (h (m_thisObject a)) - 1 /\
    derived (h2 (m_thisObject a)) = deref (derived (h (m_thisObject a))) /\
    forall other, other <> m_thisObject a -> h2 other = h other.
Proof.
  intros Hcount. unfold PendingActivity_destroy.
  assert (Hpos : (0 <? m_pendingActivityInstanceCount (h (m_thisObject a)))
                 = true) by (apply Z.ltb_lt; lia).
  rewrite Hpos, ASSERT_true. cbn [bind].
  eexists. split; [reflexivity|].
  rewrite !store_same. cbn.
  split; [apply uint_wrap_small; lia|]. split; [reflexivity|].
  intros other Hne. rewrite !store_other by exact Hne. reflexivity.
Qed.

(** X9: [setPendingActivity] followed by [unsetPendingActivity] on an object
    whose count is below [UINT_MAX] returns in debug and production builds,
    reports pending activity in between, and gives the count back as it
    was; the object went through [ref] then [deref], and no other object of
    the heap changed. *)
Theorem set_unset_pending_activity_round_trip (flags : BuildFlags)
    (this : nat) h :
  0 <= m_pendingActivityInstanceCount (h this) < UINT_MAX ->
  exists h1 h2,
    setPendingActivity ref flags this this h = Returned h1 /\
    hasPendingActivity virtualHasPendingActivity (h1 this) = true /\
    unsetPendingActivity deref flags this this h1 = Returned h2 /\
    m_pendingActivityInstanceCount (h2 this)
    = m_pendingActivityInstanceCount (h this) /\
    derived (h2 this) = deref (ref (derived (h this))) /\
    forall other, other <> this -> h2 other = h other.
Proof.
  intros Hcount.
  destruct (PendingActivity_construct_heap this h Hcount)
    as [_ [Hc1 [Hd1 Ho1]]]. cbv zeta in *.
  set (h1 := snd (PendingActivity_construct ref this h)) in *.
  destruct (PendingActivity_destroy_heap flags {| m_thisObject := this |} h1)
    as [h2 [Hret [Hc2 [Hd2 Ho2]]]];
    [cbn [m_thisObject]; lia|]. cbn [m_thisObject] in *.
  exists h1, h2.
  split.
  { unfold setPendingActivity. rewrite Nat.eqb_refl, ASSERT_true. reflexivity. }
  split.
  { unfold hasPendingActivity.
    replace (m_pendingActivityInstanceCount (h1 this) =? 0) with false
      by (symmetry; apply Z.eqb_neq; lia).
    reflexivity. }
  split; [exact Hret|].
  split; [lia|]. split; [congruence|].
  intros other Hne. rewrite Ho2, Ho1 by exact Hne. reflexivity.
Qed.

Lemma makePendingActivity_returns (flags : BuildFlags) (this : nat) h :
  makePendingActivity ref flags this this h
  = Returned (PendingActivity_construct ref this h).
Proof.
  unfold makePendingActivity. rewrite Nat.eqb_refl, ASSERT_true. reflexivity.
Qed.

(** X10: in a production build, [unsetPendingActivity] on an object whose
    count is 0 does not stop: the count wraps to [UINT_MAX] and the object
    reports pending activity from then on; in a debug build the call
    halts on its assertion. *)
Theorem unset_without_pending_activity (flags : BuildFlags)
    (this thisObject : nat) h :
  m_pendingActivityInstanceCount (h this) = 0 ->
  match unsetPendingActivity deref flags this thisObject h with
  | Crashed => ASSERT_ENABLED flags = true
  | Returned h' =>
      ASSERT_ENABLED flags = false /\
      m_pendingActivityInstanceCount (h' this) = UINT_MAX /\
      hasPendingActivity virtualHasPendingActivity (h' this) = true
  end.
Proof.
  intros Hzero. unfold unsetPendingActivity, ASSERT. rewrite Hzero.
  destruct (ASSERT_ENABLED flags); cbn; [reflexivity|].
  split; [reflexivity|].
  assert (Hcount : m_pendingActivityInstanceCount
            (store (store h this (decrement (h this))) thisObject
               (call_deref deref
                  (store h this (decrement (h this)) thisObject))
               this) = UINT_MAX).
  { unfold store at 1.
    destruct (Nat.eqb_spec this thisObject) as [<-|_]; cbn;
      rewrite store_same; cbn; rewrite Hzero; reflexivity. }
  split; [exact Hcount|].
  unfold hasPendingActivity. rewrite Hcount. reflexivity.
Qed.

Lemma make_activities_heap (flags : BuildFlags) (this : nat) :
  forall (count : nat) h,
    0 <= m_pendingActivityInstanceCount (h this) ->
    m_pendingActivityInstanceCount (h this) + Z.of_nat count <= UINT_MAX ->
    exists activities h1,
      make_activities ref flags this count h = Returned (activities, h1) /\
      List.length activities = count /\
      Forall (fun a => m_thisObject a = this) activities /\
      m_pendingActivityInstanceCount (h1 this)
      = m_pendingActivityInstanceCount (h this) + Z.of_nat count /\
      forall other, other <> this -> h1 other = h other.
Proof.
  induction count as [|count IH]; intros h Hlow Hhigh.
  - exists [], h. cbn. repeat split; auto. lia.
  - cbn [make_activities]. rewrite makePendingActivity_returns. cbn [bind].
    destruct (PendingActivity_construct_heap this h) as [Ha [Hc [_ Ho]]];
      [lia|]. cbv zeta in *.
    destruct (IH (snd (PendingActivity_construct ref this h)))
      as [activities [h1 [-> [Hlen [Hall [Hc1 Ho1]]]]]]; [lia|lia|].
    cbn [bind fst snd].
    eexists. eexists. split; [reflexivity|].
    split; [cbn; congruence|]. split; [constructor; assumption|].
    split; [lia|].
    intros other Hne. rewrite Ho1, Ho by exact Hne. reflexivity.
Qed.

Lemma destroy_activities_heap (flags : BuildFlags) (this : nat) :
  forall (activities : list PendingActivity) h,
    Forall (fun a => m_thisObject a = this) activities ->
    Z.of_nat (List.length activities)
      <= m_pendingActivityInstanceCount (h this) <= UINT_MAX ->
    exists h2,
      destroy_activities deref flags activities h = Returned h2 /\
      m_pendingActivityInstanceCount (h2 this)
      = m_pendingActivityInstanceCount (h this)
        - Z.of_nat (List.length activities) /\
      forall other, other <> this -> h2 other = h other.
Proof.
  induction activities as [|a activities IH]; intros h Hall Hcount.
  - exists h. cbn. repeat split; auto. lia.
  - inversion Hall as [|a' l' Ha Hrest]; subst a' l'.
    cbn [destroy_activities List.length] in *.
    destruct (PendingActivity_destroy_heap flags a h)
      as [h1 [-> [Hc [_ Ho]]]]; [rewrite Ha; lia|].
    rewrite Ha in *. cbn [bind].
    destruct (IH h1 Hrest) as [h2 [-> [Hc2 Ho2]]]; [lia|].
    exists h2. split; [reflexivity|]. split; [lia|].
    intros other Hne. rewrite Ho2, Ho by exact Hne. reflexivity.
Qed.

(** X11: any number of [makePendingActivity] calls on one object, as long as
    its count does not pass [UINT_MAX], all return; the count rises by their
    number and the object reports pending activity while at least one
    activity exists; destroying the activities brings the count back to
    what it was, with no other object of the heap changed. *)
Theorem pending_activities_balance (flags : BuildFlags) (this : nat)
    (count : nat) h :
  0 <= m_pendingActivityInstanceCount (h this) ->
  m_pendingActivityInstanceCount (h this) + Z.of_nat count <= UINT_MAX ->
  exists activities h1 h2,
    make_activities ref flags this count h = Returned (activities, h1) /\
    List.length activities = count /\
    m_pendingActivityInstanceCount (h1 this)
    = m_pendingActivityInstanceCount (h this) + Z.of_nat count /\
    (count <> 0%nat ->
     hasPendingActivity virtualHasPendingActivity (h1 this) = true) /\
    destroy_activities deref flags activities h1 = Returned h2 /\
    m_pendingActivityInstanceCount (h2 this)
    = m_pendingActivityInstanceCount (h this) /\
    forall other, other <> this -> h2 other = h other.
Proof.
  intros Hlow Hhigh.
  destruct (make_activities_heap flags this count h Hlow Hhigh)
    as [activities [h1 [Hmake [Hlen [Hall [Hc1 Ho1]]]]]].
  destruct (destroy_activities_heap flags this activities h1 Hall)
    as [h2 [Hdestroy [Hc2 Ho2]]]; [rewrite Hlen; lia|].
  exists activities, h1, h2.
  split; [exact Hmake|]. split; [exact Hlen|]. split; [exact Hc1|].
  split.
  { intros Hpos. unfold hasPendingActivity.
    replace (m_pendingActivityInstanceCount (h1 this) =? 0) with false
      by (symmetry; apply Z.eqb_neq; lia).
    reflexivity. }
  split; [exact Hdestroy|]. split; [rewrite Hlen in Hc2; lia|].
  intros other Hne. rewrite Ho2, Ho1 by exact Hne. reflexivity.
Qed.

End PendingActivityFacts.

Lemma set_unset_pending_activity_round_trip_witness :
  exists h1 h2,
    setPendingActivity Z.succ linux_debug 7%nat 7%nat (sample_heap 0)
    = Returned h1 /\
    hasPendingActivity (fun _ => false) (h1 7%nat) = true /\
    unsetPendingActivity Z.pred linux_debug 7%nat 7%nat h1 = Returned h2 /\
    m_pendingActivityInstanceCount (h2 7%nat)
    = m_pendingActivityInstanceCount (sample_heap 0 7%nat) /\
    derived (h2 7%nat) = Z.pred (Z.succ (derived (sample_heap 0 7%nat))) /\
    forall other, other <> 7%nat -> h2 other = sample_heap 0 other.
Proof.
  apply (set_unset_pending_activity_round_trip Z Z.succ Z.pred
           (fun _ => false) linux_debug 7%nat (sample_heap 0)).
  vm_compute. split; [discriminate|reflexivity].
Defined.

Lemma unset_without_pending_activity_witness :
  match unsetPendingActivity Z.pred linux_release 7%nat 7%nat (sample_heap 0)
  with
  | Crashed => ASSERT_ENABLED linux_release = true
  | Returned h' =>
      ASSERT_ENABLED linux_release = false /\
      m_pendingActivityInstanceCount (h' 7%nat) = UINT_MAX /\
      hasPendingActivity (fun _ => false) (h' 7%nat) = true
  end.
Proof.
  apply (unset_without_pending_activity Z Z.pred (fun _ => false)
           linux_release 7%nat 7%nat (sample_heap 0)).
  reflexivity.
Defined.

Lemma pending_activities_balance_witness :
  exists activities h1 h2,
    make_activities Z.succ linux_debug 7%nat 3 (sample_heap 0)
    = Returned (activities, h1) /\
    List.length activities = 3%nat /\
    m_pendingActivityInstanceCount (h1 7%nat)
    = m_pendingActivityInstanceCount (sample_heap 0 7%nat) + Z.of_nat 3 /\
    (3%nat <> 0%nat -> hasPendingActivity (fun _ => false) (h1 7%nat) = true) /\
    destroy_activities Z.pred linux_debug activities h1 = Returned h2 /\
    m_pendingActivityInstanceCount (h2 7%nat)
    = m_pendingActivityInstanceCount (sample_heap 0 7%nat) /\
    forall other, other <> 7%nat -> h2 other = sample_heap 0 other.
Proof.
  apply (pending_activities_balance Z Z.succ Z.pred (fun _ => false)
           linux_debug 7%nat 3 (sample_heap 0)).
  - vm_compute; discriminate.
  - vm_compute; discriminate.
Defined.
